(** * ble_scan: a shallow embedding of [ble_scan.py]

    The program scans for Bluetooth LE devices through the [bleak] binding,
    optionally filters them by a name substring, prints one line per device
    and, on request, the JSON rendering of the collected records.

    The embedding follows the source: Python strings are sequences of code
    points, Python values are a small inductive universe, [print] and the
    call of [BleakScanner.discover] are events of a trace, and exceptions are
    threaded through a writer/error monad. *)

From Stdlib Require Import List ZArith NArith Lia Bool Ascii String.
From Stdlib Require Import Numbers.DecimalString.
Import ListNotations.

Set Warnings "-register-all".
Open Scope list_scope.

(** ** Python strings *)

(** A Python [str] is a sequence of Unicode code points. *)
Definition str := list N.

(** The text of an ASCII literal of the source. *)
Definition lit (s : string) : str :=
  map N_of_ascii (list_ascii_of_string s).

Definition space : N := 32%N.
Definition newline : N := 10%N.

(** [str(z)] for a Python [int]. *)
Definition int_str (z : Z) : str :=
  lit (NilZero.string_of_int (Z.to_int z)).

(** Truth value of a string: [bool(s)] is [len(s) != 0]. *)
Definition str_truthy (s : str) : bool :=
  match s with
  | [] => false
  | _ :: _ => true
  end.

Fixpoint str_eqb (a b : str) : bool :=
  match a, b with
  | [], [] => true
  | x :: a', y :: b' => N.eqb x y && str_eqb a' b'
  | _, _ => false
  end.

(** [needle] is an initial segment of [hay]. *)
Fixpoint starts_with (needle hay : str) : bool :=
  match needle, hay with
  | [], _ => true
  | _ :: _, [] => false
  | x :: needle', y :: hay' => N.eqb x y && starts_with needle' hay'
  end.

(** [needle in hay] for two strings. *)
Fixpoint str_in (needle hay : str) : bool :=
  starts_with needle hay ||
  match hay with
  | [] => false
  | _ :: hay' => str_in needle hay'
  end.

(** [format(s, "<w")]: left-justify [s] in a field of [w] characters,
    padding with spaces; a longer [s] is left as it is. *)
Definition ljust (w : nat) (s : str) : str :=
  s ++ repeat space (w - List.length s).

(** The contiguous-substring relation that [str_in] decides. *)
Definition contains (needle hay : str) : Prop :=
  exists pre post, hay = pre ++ needle ++ post.

(** A line break or a printable ASCII character, and a text made of those. *)
Definition plain_char (c : N) : bool :=
  ((c =? newline) || ((32 <=? c) && (c <=? 126)))%N.

Definition plain_text (s : str) : Prop :=
  forallb plain_char s = true.

(** ** Python values *)

(** Keys of a dictionary. [KOther] stands for a hashable key of a type that
    [json] refuses (a tuple, [bytes], ...), named by its class. *)
Inductive pykey : Type :=
| KStr (s : str)
| KInt (z : Z)
| KBool (b : bool)
| KNone
| KOther (cls : string).

(** The values that reach the program. A dictionary is an association list
    in insertion order, the order in which Python iterates and [json]
    prints. [PyBytes] and [PyObj] are values [json] cannot serialise:
    a [bytes] object, and an opaque object named by its class (a platform
    handle of the BLE backend, for instance). Floats are not modelled. *)
Inductive pyval : Type :=
| PyNone
| PyBool (b : bool)
| PyInt (z : Z)
| PyStr (s : str)
| PyList (items : list pyval)
| PyDict (entries : list (pykey * pyval))
| PyBytes (bs : list N)
| PyObj (cls : string).

(** [bool(v)]. An opaque object defines neither [__bool__] nor [__len__]. *)
Definition truthy (v : pyval) : bool :=
  match v with
  | PyNone => false
  | PyBool b => b
  | PyInt z => negb (Z.eqb z 0)
  | PyStr s => str_truthy s
  | PyList [] => false
  | PyList (_ :: _) => true
  | PyDict [] => false
  | PyDict (_ :: _) => true
  | PyBytes [] => false
  | PyBytes (_ :: _) => true
  | PyObj _ => true
  end.

(** [a or b], where [b] is only evaluated when [a] is false. *)
Definition py_or (a b : pyval) : pyval :=
  if truthy a then a else b.

Definition key_is_str (name : str) (k : pykey) : bool :=
  match k with
  | KStr s => str_eqb s name
  | _ => false
  end.

(** [d[name]] for a string key, [None] when the key is missing. *)
Fixpoint dict_get (name : str) (entries : list (pykey * pyval)) : option pyval :=
  match entries with
  | [] => None
  | (k, v) :: rest => if key_is_str name k then Some v else dict_get name rest
  end.

Definition getitem (v : pyval) (name : str) : option pyval :=
  match v with
  | PyDict entries => dict_get name entries
  | _ => None
  end.

Definition keys (v : pyval) : list pykey :=
  match v with
  | PyDict entries => map fst entries
  | _ => []
  end.

(** ** Exceptions *)

(** An instance of a subclass of [Exception]: its class and [str(e)]. *)
Inductive exn : Type :=
| Exn (cls : string) (msg : str).

Definition exn_str (e : exn) : str :=
  match e with
  | Exn _ msg => msg
  end.

Definition RuntimeError (msg : string) : exn := Exn "RuntimeError" (lit msg).
Definition TypeError (msg : str) : exn := Exn "TypeError" msg.

(** Whether a computation that may raise gave a value. *)
Definition succeeds {A : Type} (r : exn + A) : bool :=
  match r with
  | inl _ => false
  | inr _ => true
  end.

(** ** The [json] encoder

    [json.dumps(o, indent=2)] with the defaults of the standard library:
    [ensure_ascii=True], item separator [","], key separator [": "],
    [skipkeys=False], [sort_keys=False]. The text is assembled only when the
    whole value has been encoded; the first value or key that cannot be
    serialised, in traversal order, raises [TypeError]. *)
Module Json.

Definition quote : N := 34%N.
Definition backslash : N := 92%N.

Definition hex_digit (d : N) : N :=
  if (d <? 10)%N then (48 + d)%N else (87 + d)%N.

(** [format(n, "04x")] for [n < 0x10000]. *)
Definition hex4 (n : N) : str :=
  [ hex_digit (N.shiftr n 12 mod 16); hex_digit (N.shiftr n 8 mod 16);
    hex_digit (N.shiftr n 4 mod 16); hex_digit (n mod 16) ]%N.

Definition u_escape (n : N) : str :=
  backslash :: 117%N :: hex4 n.

(** The replacement of one character by [encode_basestring_ascii]:
    printable ASCII is kept, the quote, the backslash and five control
    characters have short escapes, everything else is written [\uXXXX],
    as a surrogate pair beyond the basic plane. *)
Definition escape_char (c : N) : str :=
  if (c =? quote)%N then [backslash; quote]
  else if (c =? backslash)%N then [backslash; backslash]
  else if (c =? 8)%N then [backslash; 98%N]
  else if (c =? 12)%N then [backslash; 102%N]
  else if (c =? 10)%N then [backslash; 110%N]
  else if (c =? 13)%N then [backslash; 114%N]
  else if (c =? 9)%N then [backslash; 116%N]
  else if ((32 <=? c) && (c <=? 126))%N then [c]
  else if (c <? 65536)%N then u_escape c
  else
    let n := (c - 65536)%N in
    let s1 := N.lor 55296 (N.land (N.shiftr n 10) 1023) in
    let s2 := N.lor 56320 (N.land n 1023) in
    u_escape s1 ++ u_escape s2.

Definition encode_str (s : str) : str :=
  quote :: flat_map escape_char s ++ [quote].

(** The text of a dictionary key before it is quoted. *)
Definition key_text (k : pykey) : exn + str :=
  match k with
  | KStr s => inr s
  | KInt z => inr (int_str z)
  | KBool true => inr (lit "true")
  | KBool false => inr (lit "false")
  | KNone => inr (lit "null")
  | KOther cls =>
      inl (TypeError (lit "keys must be str, int, float, bool or None, not "
                        ++ lit cls))
  end.

Definition not_serializable (cls : string) : exn :=
  TypeError (lit "Object of type " ++ lit cls ++ lit " is not JSON serializable").

(** Encode the elements from left to right, stopping at the first error. *)
Definition encode_all {A : Type} (f : A -> exn + str) : list A -> exn + list str :=
  fix go (l : list A) : exn + list str :=
    match l with
    | [] => inr []
    | x :: rest =>
        match f x with
        | inl e => inl e
        | inr s =>
            match go rest with
            | inl e => inl e
            | inr ss => inr (s :: ss)
            end
        end
    end.

Fixpoint join (sep : str) (chunks : list str) : str :=
  match chunks with
  | [] => []
  | [c] => c
  | c :: rest => c ++ sep ++ join sep rest
  end.

Definition newline_indent (level : nat) : str :=
  newline :: repeat space (2 * level).

(** An empty container is written without a line break, any other one with
    an item per line, one level deeper. *)
Definition bracket (opening closing : string) (level : nat) (chunks : list str) : str :=
  match chunks with
  | [] => lit opening ++ lit closing
  | _ :: _ =>
      lit opening ++ newline_indent (S level)
        ++ join (lit "," ++ newline_indent (S level)) chunks
        ++ newline_indent level ++ lit closing
  end.

Fixpoint encode (level : nat) (v : pyval) {struct v} : exn + str :=
  match v with
  | PyNone => inr (lit "null")
  | PyBool true => inr (lit "true")
  | PyBool false => inr (lit "false")
  | PyInt z => inr (int_str z)
  | PyStr s => inr (encode_str s)
  | PyList items =>
      match encode_all (encode (S level)) items with
      | inl e => inl e
      | inr chunks => inr (bracket "[" "]" level chunks)
      end
  | PyDict entries =>
      match encode_all
              (fun kv =>
                 match key_text (fst kv) with
                 | inl e => inl e
                 | inr k =>
                     match encode (S level) (snd kv) with
                     | inl e => inl e
                     | inr s => inr (encode_str k ++ lit ": " ++ s)
                     end
                 end) entries with
      | inl e => inl e
      | inr chunks => inr (bracket "{" "}" level chunks)
      end
  | PyBytes _ => inl (not_serializable "bytes")
  | PyObj cls => inl (not_serializable cls)
  end.

Definition dumps (v : pyval) : exn + str := encode 0 v.

(** The keys and the values [json] accepts: every key is a string, a
    number, a boolean or [None], and no [bytes] and no opaque object occurs
    anywhere in the value. [encode_succeeds] below shows that these are the
    values [encode] renders. *)
Definition key_ok (k : pykey) : bool :=
  match k with
  | KOther _ => false
  | _ => true
  end.

Fixpoint serializable (v : pyval) : bool :=
  match v with
  | PyNone | PyBool _ | PyInt _ | PyStr _ => true
  | PyList items => forallb serializable items
  | PyDict entries =>
      forallb (fun kv => key_ok (fst kv) && serializable (snd kv)) entries
  | PyBytes _ | PyObj _ => false
  end.

End Json.

(** ** The external BLE binding *)

(** A [BLEDevice] as [bleak] hands it over. [address] is a string; [name] is
    a string or [None]. The attributes [rssi], [metadata] and [details] exist
    or not depending on the version and backend of the binding, hence the
    outer [option]; [rssi] holds an [int] or [None], the other two any value. *)
Record device : Type := {
  address : str;
  name : option str;
  rssi : option (option Z);
  metadata : option pyval;
  details : option pyval
}.

(** [getattr(d, "attr", default)]. *)
Definition getattr {A : Type} (attr : option A) (default : A) : A :=
  match attr with
  | Some v => v
  | None => default
  end.

(** An [int] or [None] as a Python value, and its [str()]. *)
Definition of_opt_int (r : option Z) : pyval :=
  match r with
  | Some z => PyInt z
  | None => PyNone
  end.

Definition opt_int_str (r : option Z) : str :=
  match r with
  | Some z => int_str z
  | None => lit "None"
  end.

(** ** A concrete runtime and sample devices

    The program is parametrised by [str()] of floats and by [str.lower].
    For runs on concrete inputs: timeouts of whole seconds, which Python
    prints with a trailing [.0], and [str.lower] on ASCII text. *)

Definition seconds_str (n : N) : str :=
  int_str (Z.of_N n) ++ lit ".0".

Definition ascii_lower (s : str) : str :=
  map (fun c => if ((65 <=? c) && (c <=? 90))%N then (c + 32)%N else c) s.

Definition widget : device :=
  {| address := lit "11:22:33:44:55:66";
     name := Some (lit "Widget");
     rssi := Some (Some (-70)%Z);
     metadata := None;
     details := None |}.

(** A device whose metadata carries manufacturer data, as [bleak] reports
    it: a dictionary from company identifiers to [bytes]. *)
Definition temp_sensor : device :=
  {| address := lit "AA:BB:CC:DD:EE:FF";
     name := Some (lit "TempSensor");
     rssi := Some (Some (-61)%Z);
     metadata :=
       Some (PyDict [ (KStr (lit "uuids"), PyList []);
                      (KStr (lit "manufacturer_data"),
                       PyDict [ (KInt 76, PyBytes [2; 21]%N) ]) ]);
     details := Some (PyObj "CBPeripheral") |}.

Definition light : device :=
  {| address := lit "01:02:03:04:05:06";
     name := Some (lit "Light");
     rssi := None;
     metadata := Some (PyDict []);
     details := Some (PyDict [ (KStr (lit "path"), PyStr (lit "/org/bluez/hci0")) ]) |}.

Definition unnamed : device :=
  {| address := lit "0A:0B:0C:0D:0E:0F";
     name := None;
     rssi := Some None;
     metadata := None;
     details := None |}.

(** Order-preserving sub-sequence: [subseq l1 l2] when [l1] is [l2] with
    some elements dropped. *)
Inductive subseq {A : Type} : list A -> list A -> Prop :=
| subseq_nil : subseq [] []
| subseq_skip x l1 l2 : subseq l1 l2 -> subseq l1 (x :: l2)
| subseq_keep x l1 l2 : subseq l1 l2 -> subseq (x :: l1) (x :: l2).

(** ** The program *)

Section Program.

(** Python floats and their [str()], which an f-string prints. *)
Context {float : Type}.
Variable float_str : float -> str.

(** [str.lower]. *)
Variable lower : str -> str.

(** What the program does to the outside, in order: a call of [print]
    (which writes the text and a line break to standard output) and the call
    of [BleakScanner.discover]. *)
Inductive event : Type :=
| Print (text : str)
| Discover (timeout : float).

(** A computation: the events it produced and either the exception that
    ended it or its value. *)
Definition M (A : Type) : Type := (list event * (exn + A))%type.

Definition ret {A : Type} (x : A) : M A := ([], inr x).

Definition raise {A : Type} (e : exn) : M A := ([], inl e).

Definition bind {A B : Type} (m : M A) (k : A -> M B) : M B :=
  match m with
  | (tr, inl e) => (tr, inl e)
  | (tr, inr x) => let (tr', r) := k x in (tr ++ tr', r)
  end.

Definition print (text : str) : M unit := ([Print text], inr tt).

(** A pure computation that may raise. *)
Definition lift {A : Type} (r : exn + A) : M A := ([], r).

(** [try: x = m  except Exception as e: handler(e)], followed by [k x]
    outside the [try] block. *)
Definition try_except {A B : Type} (m : M A) (handler : exn -> M B) (k : A -> M B) : M B :=
  match m with
  | (tr, inl e) => let (tr', r) := handler e in (tr ++ tr', r)
  | (tr, inr x) => let (tr', r) := k x in (tr ++ tr', r)
  end.

Notation "x <- m ;; k" := (bind m (fun x => k))
  (at level 61, m at next level, right associativity).
Notation "m ;; k" := (bind m (fun _ => k))
  (at level 61, right associativity).

Definition trace {A : Type} (m : M A) : list event := fst m.
Definition outcome {A : Type} (m : M A) : exn + A := snd m.

(** The texts printed, in order. *)
Fixpoint printed (tr : list event) : list str :=
  match tr with
  | [] => []
  | Print text :: rest => text :: printed rest
  | Discover _ :: rest => printed rest
  end.

(** The events that follow the call of [discover]: the result stage. *)
Fixpoint after_discover (tr : list event) : list event :=
  match tr with
  | [] => []
  | Discover _ :: rest => rest
  | Print _ :: rest => after_discover rest
  end.

(** The discovery operation of this run: for a timeout, the exception it
    raises or the devices it returns. [BleakScanner] is [None] when the
    import of [bleak] failed. *)
Definition scanner : Type := float -> exn + list device.

Definition discover (sc : scanner) (timeout : float) : M (list device) :=
  ([Discover timeout], sc timeout).

(** The comprehension's condition:
    [d.name and filter_name.lower() in d.name.lower()]. *)
Definition name_matches (filter_name : str) (d : device) : bool :=
  match name d with
  | None => false
  | Some n => str_truthy n && str_in (lower filter_name) (lower n)
  end.

(** Case-insensitive containment as the program has it: both strings are
    folded with [str.lower] and the folded filter is a contiguous part of the
    folded name. *)
Definition contains_ci (S n : str) : Prop :=
  contains (lower S) (lower n).

(** The filter stage: [if filter_name: devices = [d for d in devices if ...]]. *)
Definition filter_devices (filter_name : option str) (devices : list device) : list device :=
  match filter_name with
  | None => devices
  | Some f => if str_truthy f then filter (name_matches f) devices else devices
  end.

(** [d.name or ""]. *)
Definition name_or_empty (d : device) : str :=
  match name d with
  | Some n => if str_truthy n then n else lit ""
  | None => lit ""
  end.

(** [getattr(d, "metadata", {}) or getattr(d, "details", {})]. *)
Definition details_of (d : device) : pyval :=
  py_or (getattr (metadata d) (PyDict [])) (getattr (details d) (PyDict [])).

(** The dictionary built for a device. *)
Definition make_item (d : device) : pyval :=
  PyDict [ (KStr (lit "address"), PyStr (address d));
           (KStr (lit "name"), PyStr (name_or_empty d));
           (KStr (lit "rssi"), of_opt_int (getattr (rssi d) None));
           (KStr (lit "details"), details_of d) ].

(** The f-string of the device line, from the three values it reads back
    from the item. *)
Definition device_line (addr nm : str) (r : option Z) : str :=
  lit "Address: " ++ ljust 20 addr ++ lit " Name: " ++ ljust 30 nm
    ++ lit " RSSI: " ++ opt_int_str r.

Definition line_of (d : device) : str :=
  device_line (address d) (name_or_empty d) (getattr (rssi d) None).

(** The loop over the surviving devices: append the item, print its line. *)
Fixpoint format_devices (devices : list device) (formatted : list pyval) : M (list pyval) :=
  match devices with
  | [] => ret formatted
  | d :: rest =>
      let item := make_item d in
      let formatted := formatted ++ [item] in
      print (line_of d) ;;
      format_devices rest formatted
  end.

Definition progress_line (timeout : float) : str :=
  lit "Scanning for BLE devices for " ++ float_str timeout ++ lit " seconds...".

Definition do_scan (BleakScanner : option scanner) (timeout : float)
    (filter_name : option str) : M pyval :=
  match BleakScanner with
  | None => raise (RuntimeError "bleak is not installed. Run: pip install bleak")
  | Some sc =>
      print (progress_line timeout) ;;
      devices <- discover sc timeout ;;
      let devices := filter_devices filter_name devices in
      match devices with
      | [] => print (lit "No devices found.") ;; ret (PyList [])
      | _ :: _ =>
          formatted <- format_devices devices [] ;;
          ret (PyList formatted)
      end
  end.

(** What the result stage of [do_scan] should print for a list of survivors;
    [do_scan_returns] below relates it to [do_scan]. *)
Definition report_events (survivors : list device) : list event :=
  match survivors with
  | [] => [Print (lit "No devices found.")]
  | _ :: _ => map (fun d => Print (line_of d)) survivors
  end.

(** [print("Error during scan:", e)] writes the two arguments, the second
    through [str()], separated by a space. *)
Definition error_line (e : exn) : str :=
  lit "Error during scan:" ++ [space] ++ exn_str e.

(** The parsed command line. *)
Record args : Type := {
  arg_timeout : float;
  arg_filter_name : option str;
  arg_json : bool
}.

(** [main], after [parse_args]. [asyncio.run] runs the coroutine [do_scan]
    to its end and hands over its value or its exception. The value of
    [main] is the code it returns; an exception in the outcome is one that
    leaves [main] uncaught. *)
Definition main (BleakScanner : option scanner) (a : args) : M Z :=
  try_except (do_scan BleakScanner (arg_timeout a) (arg_filter_name a))
    (fun e => print (error_line e) ;; ret 2%Z)
    (fun results =>
       (if arg_json a
        then text <- lift (Json.dumps results) ;; print text
        else ret tt) ;;
       ret 0%Z).



End Program.

(** ** Sample runs

    Runs of the program under the concrete runtime: the discovery operation
    returns the given devices, or raises the given exception, whatever the
    timeout. *)

Definition scan_finding (found : list device) : @scanner N :=
  fun _ => inr found.

Definition scan_failing (e : exn) : @scanner N :=
  fun _ => inl e.

Definition run_main (BleakScanner : option (@scanner N)) (a : @args N) : @M N Z :=
  main seconds_str ascii_lower BleakScanner a.

Definition plain_args : @args N :=
  {| arg_timeout := 1%N; arg_filter_name := None; arg_json := false |}.

Definition json_args : @args N :=
  {| arg_timeout := 5%N; arg_filter_name := None; arg_json := true |}.

Definition sensor_args : @args N :=
  {| arg_timeout := 5%N; arg_filter_name := Some (lit "sensor"); arg_json := false |}.

(** ** Strings *)

Lemma starts_with_prefix (needle hay : str) :
  starts_with needle hay = true <-> exists post, hay = needle ++ post.
Proof.
  revert hay; induction needle as [|x needle IH]; intros hay; simpl.
  - split; [intros _; now exists hay | reflexivity].
  - destruct hay as [|y hay].
    + split; [discriminate | intros [post H]; discriminate].
    + rewrite andb_true_iff, N.eqb_eq, IH. split.
      * intros [-> [post ->]]. now exists post.
      * intros [post H]. injection H as -> ->. split; [reflexivity | now exists post].
Qed.

Lemma str_in_contains (needle hay : str) :
  str_in needle hay = true <-> contains needle hay.
Proof.
  unfold contains. induction hay as [|y hay IH].
  - simpl. rewrite orb_false_r, starts_with_prefix. split.
    + intros [post H]. now exists [], post.
    + intros [pre [post H]]. destruct pre; [now exists post | discriminate].
  - cbn [str_in]. rewrite orb_true_iff, starts_with_prefix, IH. split.
    + intros [[post H] | [pre [post H]]].
      * now exists [], post.
      * exists (y :: pre), post. now rewrite H.
    + intros [pre [post H]]. destruct pre as [|p pre].
      * left. now exists post.
      * right. injection H as -> ->. now exists pre, post.
Qed.

Lemma str_truthy_nonempty (s : str) : str_truthy s = true <-> s <> [].
Proof.
  destruct s; simpl; split; congruence.
Qed.

Lemma ljust_length (w : nat) (s : str) :
  List.length (ljust w s) = Nat.max w (List.length s).
Proof.
  unfold ljust. rewrite length_app, repeat_length. lia.
Qed.

Lemma ljust_keeps_text (w : nat) (s : str) :
  firstn (List.length s) (ljust w s) = s.
Proof.
  unfold ljust. rewrite firstn_app, Nat.sub_diag, firstn_all. simpl.
  apply app_nil_r.
Qed.

Lemma ljust_long (w : nat) (s : str) :
  w <= List.length s -> ljust w s = s.
Proof.
  intros H. unfold ljust. replace (w - List.length s) with 0 by lia.
  apply app_nil_r.
Qed.

(** ** Values and the [json] encoder *)

(** Induction on a value, with the property at hand for every element of a
    list and every value of a dictionary. *)
Lemma pyval_induction (P : pyval -> Prop) :
  P PyNone ->
  (forall b, P (PyBool b)) ->
  (forall z, P (PyInt z)) ->
  (forall s, P (PyStr s)) ->
  (forall items, Forall P items -> P (PyList items)) ->
  (forall entries, Forall (fun kv => P (snd kv)) entries -> P (PyDict entries)) ->
  (forall bs, P (PyBytes bs)) ->
  (forall cls, P (PyObj cls)) ->
  forall v, P v.
Proof.
  intros HN HB HI HS HL HD HY HO.
  fix IH 1. intros [ | b | z | s | items | entries | bs | cls].
  - exact HN.
  - apply HB.
  - apply HI.
  - apply HS.
  - apply HL.
    exact ((fix all (l : list pyval) : Forall P l :=
              match l with
              | [] => Forall_nil P
              | x :: rest => Forall_cons x (IH x) (all rest)
              end) items).
  - apply HD.
    exact ((fix all (l : list (pykey * pyval)) : Forall (fun kv => P (snd kv)) l :=
              match l with
              | [] => Forall_nil _
              | kv :: rest =>
                  Forall_cons (P := fun kv => P (snd kv)) kv (IH (snd kv)) (all rest)
              end) entries).
  - apply HY.
  - apply HO.
Qed.

Lemma forallb_agree {A : Type} (f g : A -> bool) (l : list A) :
  (forall x, In x l -> f x = g x) -> forallb f l = forallb g l.
Proof.
  induction l as [|x rest IH]; intros H; simpl; [reflexivity|].
  rewrite (H x (or_introl eq_refl)), IH; [reflexivity|].
  intros y Hy. apply H. now right.
Qed.

Lemma succeeds_encode_all {A : Type} (f : A -> exn + str) (l : list A) :
  succeeds (Json.encode_all f l) = forallb (fun x => succeeds (f x)) l.
Proof.
  induction l as [|x rest IH]; simpl; [reflexivity|].
  destruct (f x) as [e|t]; simpl; [reflexivity|].
  rewrite <- IH. now destruct (Json.encode_all f rest).
Qed.

Lemma succeeds_key_text (k : pykey) :
  succeeds (Json.key_text k) = Json.key_ok k.
Proof. now destruct k as [s|z|[|]| |cls]. Qed.

(** [encode] renders a value exactly when it is [serializable], at any
    depth of indentation. *)
Lemma encode_succeeds (v : pyval) :
  forall level : nat, succeeds (Json.encode level v) = Json.serializable v.
Proof.
  induction v as [ | b | z | s | items IH | entries IH | bs | cls ]
    using pyval_induction; intros level; cbn [Json.encode Json.serializable];
    try reflexivity.
  - now destruct b.
  - transitivity (succeeds (Json.encode_all (Json.encode (S level)) items)).
    + now destruct (Json.encode_all (Json.encode (S level)) items).
    + rewrite succeeds_encode_all. apply forallb_agree.
      intros x Hx. rewrite Forall_forall in IH. now apply IH.
  - match goal with
    | |- succeeds (match Json.encode_all ?f entries with _ => _ end) = _ =>
        transitivity (succeeds (Json.encode_all f entries));
          [now destruct (Json.encode_all f entries)|]
    end.
    rewrite succeeds_encode_all. apply forallb_agree.
    intros kv Hkv. rewrite Forall_forall in IH.
    rewrite <- succeeds_key_text, <- (IH kv Hkv (S level)).
    destruct (Json.key_text (fst kv)); [reflexivity|].
    now destruct (Json.encode (S level) (snd kv)).
Qed.

(** ** The characters of the JSON text *)

Lemma plain_text_app (a b : str) :
  plain_text (a ++ b) <-> plain_text a /\ plain_text b.
Proof. unfold plain_text. now rewrite forallb_app, andb_true_iff. Qed.

Lemma plain_text_cons (c : N) (s : str) :
  plain_text (c :: s) <-> plain_char c = true /\ plain_text s.
Proof. unfold plain_text. simpl. now rewrite andb_true_iff. Qed.

Lemma plain_text_spaces (n : nat) : plain_text (repeat space n).
Proof. induction n; [reflexivity | now apply plain_text_cons]. Qed.

Lemma plain_text_digits (d : Decimal.uint) :
  plain_text (lit (NilEmpty.string_of_uint d)).
Proof. induction d; [reflexivity | now apply plain_text_cons ..]. Qed.

Lemma plain_text_int_str (z : Z) : plain_text (int_str z).
Proof.
  unfold int_str. destruct (Z.to_int z) as [d|d]; cbn [NilZero.string_of_int].
  - destruct d; try apply plain_text_digits. reflexivity.
  - change (plain_text (45%N :: lit (NilZero.string_of_uint d))).
    apply plain_text_cons. split; [reflexivity|].
    destruct d; try apply plain_text_digits. reflexivity.
Qed.

Lemma hex_digit_plain (d : N) : (d < 16)%N -> plain_char (Json.hex_digit d) = true.
Proof.
  intros H. unfold Json.hex_digit, plain_char, newline.
  destruct (N.ltb_spec d 10).
  - apply orb_true_iff. right. apply andb_true_iff. split; apply N.leb_le; lia.
  - apply orb_true_iff. right. apply andb_true_iff. split; apply N.leb_le; lia.
Qed.

Lemma plain_text_u_escape (n : N) : plain_text (Json.u_escape n).
Proof.
  unfold Json.u_escape, Json.hex4.
  repeat (apply plain_text_cons; split;
          [first [reflexivity | apply hex_digit_plain; apply N.mod_lt; discriminate]|]).
  reflexivity.
Qed.

Lemma plain_text_escape_char (c : N) : plain_text (Json.escape_char c).
Proof.
  unfold Json.escape_char.
  repeat match goal with
         | |- plain_text (if ?b then _ else _) => destruct b eqn:?
         end; try reflexivity.
  - apply plain_text_cons. split; [|reflexivity].
    unfold plain_char. apply orb_true_iff. now right.
  - apply plain_text_u_escape.
  - apply plain_text_app. split; apply plain_text_u_escape.
Qed.

Lemma plain_text_encode_str (s : str) : plain_text (Json.encode_str s).
Proof.
  unfold Json.encode_str. apply plain_text_cons. split; [reflexivity|].
  apply plain_text_app. split; [|reflexivity].
  induction s as [|c s IH]; [reflexivity|]. simpl.
  apply plain_text_app. split; [apply plain_text_escape_char | exact IH].
Qed.

Lemma plain_text_newline_indent (level : nat) :
  plain_text (Json.newline_indent level).
Proof.
  unfold Json.newline_indent. apply plain_text_cons.
  split; [reflexivity | apply plain_text_spaces].
Qed.

Lemma plain_text_join (sep : str) (chunks : list str) :
  plain_text sep -> Forall plain_text chunks -> plain_text (Json.join sep chunks).
Proof.
  intros Hsep Hall. induction Hall as [|c rest Hc Hrest IH]; [reflexivity|].
  cbn [Json.join]. destruct rest as [|c' rest']; [exact Hc|].
  apply plain_text_app. split; [exact Hc|].
  apply plain_text_app. split; [exact Hsep | exact IH].
Qed.

Lemma plain_text_bracket (opening closing : string) (level : nat) (chunks : list str) :
  plain_text (lit opening) -> plain_text (lit closing) ->
  Forall plain_text chunks ->
  plain_text (Json.bracket opening closing level chunks).
Proof.
  intros Ho Hc Hall. unfold Json.bracket. destruct chunks as [|c rest].
  - apply plain_text_app. now split.
  - repeat (apply plain_text_app; split);
      try assumption; try apply plain_text_newline_indent.
    apply plain_text_join; [|assumption].
    apply plain_text_app. split; [reflexivity | apply plain_text_newline_indent].
Qed.

Lemma encode_all_chunks {A : Type} (f : A -> exn + str) (Q : str -> Prop)
    (l : list A) (chunks : list str) :
  (forall x t, In x l -> f x = inr t -> Q t) ->
  Json.encode_all f l = inr chunks ->
  Forall Q chunks.
Proof.
  revert chunks; induction l as [|x rest IH]; intros chunks Hf; simpl.
  - intros E. injection E as <-. constructor.
  - destruct (f x) as [e|t] eqn:Hx; [discriminate|].
    destruct (Json.encode_all f rest) as [e|ts] eqn:Hrest; [discriminate|].
    intros E. injection E as <-. constructor.
    + apply (Hf x t); [now left | exact Hx].
    + apply IH; [|reflexivity]. intros y u Hy. apply Hf. now right.
Qed.

Lemma plain_text_encode (v : pyval) :
  forall (level : nat) (text : str),
    Json.encode level v = inr text -> plain_text text.
Proof.
  induction v as [ | b | z | s | items IH | entries IH | bs | cls ]
    using pyval_induction; intros level text; cbn [Json.encode].
  - intros E. now injection E as <-.
  - destruct b; intros E; now injection E as <-.
  - intros E. injection E as <-. apply plain_text_int_str.
  - intros E. injection E as <-. apply plain_text_encode_str.
  - destruct (Json.encode_all (Json.encode (S level)) items) as [e|chunks] eqn:Hall;
      [discriminate|].
    intros E. injection E as <-.
    apply plain_text_bracket; [reflexivity | reflexivity |].
    apply (encode_all_chunks _ _ _ _ (fun x t Hx => proj1 (Forall_forall _ _) IH x Hx (S level) t) Hall).
  - match goal with
    | |- match Json.encode_all ?f entries with _ => _ end = _ -> _ =>
        destruct (Json.encode_all f entries) as [e|chunks] eqn:Hall; [discriminate|]
    end.
    intros E. injection E as <-.
    apply plain_text_bracket; [reflexivity | reflexivity |].
    refine (encode_all_chunks _ _ _ _ _ Hall).
    intros kv t Hkv. cbv beta.
    destruct (Json.key_text (fst kv)) as [e|k]; [discriminate|].
    destruct (Json.encode (S level) (snd kv)) as [e|u] eqn:Hu; [discriminate|].
    intros E. injection E as <-.
    apply plain_text_app. split; [apply plain_text_encode_str|].
    apply (proj2 (plain_text_app (lit ": ") u)). split; [reflexivity|].
    rewrite Forall_forall in IH. exact (IH kv Hkv (S level) u Hu).
  - discriminate.
  - discriminate.
Qed.

Section Properties.

Context {float : Type} (float_str : float -> str) (lower : str -> str).

(** ** The formatting loop and [do_scan] *)

Lemma format_devices_run (devices : list device) (formatted : list pyval) :
  format_devices (float := float) devices formatted =
  (map (fun d => Print (line_of d)) devices,
   inr (formatted ++ map make_item devices)).
Proof.
  revert formatted; induction devices as [|d rest IH]; intros formatted.
  - simpl. unfold ret. now rewrite app_nil_r.
  - cbn [format_devices map]. unfold bind, print. rewrite IH.
    cbn. now rewrite <- app_assoc.
Qed.

Lemma do_scan_returns (sc : scanner) (timeout : float) (filter_name : option str)
    (found : list device) :
  sc timeout = inr found ->
  do_scan float_str lower (Some sc) timeout filter_name =
  (Print (progress_line float_str timeout) :: Discover timeout
     :: report_events (filter_devices lower filter_name found),
   inr (PyList (map make_item (filter_devices lower filter_name found)))).
Proof.
  intros Hsc. unfold do_scan, bind, print, discover. rewrite Hsc.
  destruct (filter_devices lower filter_name found) as [|d rest] eqn:Hf.
  - reflexivity.
  - rewrite format_devices_run. unfold ret. cbv beta iota.
    now rewrite app_nil_r.
Qed.

Lemma do_scan_raises (sc : scanner) (timeout : float) (filter_name : option str)
    (e : exn) :
  sc timeout = inl e ->
  do_scan float_str lower (Some sc) timeout filter_name =
  ([Print (progress_line float_str timeout); Discover timeout], inl e).
Proof.
  intros Hsc. unfold do_scan, bind, print, discover. now rewrite Hsc.
Qed.

(** ** [main] around [do_scan] *)

Lemma main_scan_raises (B : option scanner) (a : args) (tr : list event) (e : exn) :
  do_scan float_str lower B (arg_timeout a) (arg_filter_name a) = (tr, inl e) ->
  main float_str lower B a = (tr ++ [Print (error_line e)], inr 2%Z).
Proof.
  intros H. unfold main, try_except. rewrite H. reflexivity.
Qed.

Lemma main_no_json (B : option scanner) (a : args) (tr : list event) (results : pyval) :
  do_scan float_str lower B (arg_timeout a) (arg_filter_name a) = (tr, inr results) ->
  arg_json a = false ->
  main float_str lower B a = (tr, inr 0%Z).
Proof.
  intros H Hj. unfold main, try_except. rewrite H, Hj. cbn.
  now rewrite app_nil_r.
Qed.

Lemma main_json_printed (B : option scanner) (a : args) (tr : list event)
    (results : pyval) (text : str) :
  do_scan float_str lower B (arg_timeout a) (arg_filter_name a) = (tr, inr results) ->
  arg_json a = true ->
  Json.dumps results = inr text ->
  main float_str lower B a = (tr ++ [Print text], inr 0%Z).
Proof.
  intros H Hj Hd. unfold main, try_except. rewrite H, Hj.
  unfold bind, lift, print, ret. rewrite Hd. reflexivity.
Qed.

Lemma main_json_raises (B : option scanner) (a : args) (tr : list event)
    (results : pyval) (e : exn) :
  do_scan float_str lower B (arg_timeout a) (arg_filter_name a) = (tr, inr results) ->
  arg_json a = true ->
  Json.dumps results = inl e ->
  main float_str lower B a = (tr, inl e).
Proof.
  intros H Hj Hd. unfold main, try_except. rewrite H, Hj.
  unfold bind, lift, print, ret. rewrite Hd. cbn.
  now rewrite app_nil_r.
Qed.

(** ** First characters of the printed texts *)

Lemma progress_line_head (timeout : float) :
  hd_error (progress_line float_str timeout) = Some 83%N.
Proof. reflexivity. Qed.

Lemma line_of_head (d : device) : hd_error (line_of d) = Some 65%N.
Proof. reflexivity. Qed.

Lemma error_line_head (e : exn) : hd_error (error_line e) = Some 69%N.
Proof. reflexivity. Qed.

Lemma dumps_list_head (items : list pyval) (text : str) :
  Json.dumps (PyList items) = inr text -> hd_error text = Some 91%N.
Proof.
  unfold Json.dumps. cbn [Json.encode].
  destruct (Json.encode_all (Json.encode 1) items) as [e|chunks]; [discriminate|].
  intros H. injection H as <-. now destruct chunks.
Qed.

Lemma report_events_no_progress (timeout : float) (survivors : list device) :
  ~ In (Print (progress_line float_str timeout))
       (report_events (float := float) survivors).
Proof.
  unfold report_events. destruct survivors as [|d rest].
  - intros [H | []]. discriminate H.
  - intros H. apply in_map_iff in H. destruct H as [d' [H _]].
    assert (E : line_of d' = progress_line float_str timeout) by congruence.
    apply (f_equal (@hd_error N)) in E.
    rewrite line_of_head, progress_line_head in E. discriminate.
Qed.

Lemma report_events_no_discover (timeout : float) (survivors : list device) :
  ~ In (Discover timeout) (report_events survivors).
Proof.
  unfold report_events. destruct survivors as [|d rest].
  - intros [H | []]. discriminate H.
  - intros H. apply in_map_iff in H. destruct H as [d' [H _]]. discriminate H.
Qed.

(** ** The filter stage *)

Lemma name_matches_spec (S : str) (d : device) :
  name_matches lower S d = true <->
  exists n, name d = Some n /\ n <> [] /\ contains_ci lower S n.
Proof.
  unfold name_matches, contains_ci. destruct (name d) as [n|].
  - rewrite andb_true_iff, str_truthy_nonempty, str_in_contains. split.
    + intros [Hn Hc]. now exists n.
    + intros [n' [E [Hn Hc]]]. injection E as <-. now split.
  - split; [discriminate | intros [n [E _]]; discriminate].
Qed.

Lemma subseq_refl {A : Type} (l : list A) : subseq l l.
Proof. induction l; constructor; assumption. Qed.

Lemma subseq_filter {A : Type} (p : A -> bool) (l : list A) :
  subseq (filter p l) l.
Proof.
  induction l as [|x l IH]; simpl.
  - constructor.
  - destruct (p x); constructor; assumption.
Qed.

(** C3. For a non-empty filter substring [S], a record survives the filter
    exactly when it was discovered, its name is a non-empty string and the
    name contains [S] case-insensitively; a discovered record that is
    excluded has no name, an empty name, or a name that does not contain [S]
    case-insensitively. *)
Theorem filter_keeps_matching_names (S : str) (found : list device) :
  S <> [] ->
  forall d : device,
    (In d (filter_devices lower (Some S) found) <->
     In d found /\ exists n, name d = Some n /\ n <> [] /\ contains_ci lower S n) /\
    (In d found -> ~ In d (filter_devices lower (Some S) found) ->
     name d = None \/ name d = Some [] \/
     exists n, name d = Some n /\ ~ contains_ci lower S n).
Proof.
  intros HS d. unfold filter_devices.
  apply str_truthy_nonempty in HS. rewrite HS. split.
  - rewrite filter_In, name_matches_spec. reflexivity.
  - intros Hin Hout. rewrite filter_In in Hout.
    destruct (name d) as [n|] eqn:Hname; [|now left].
    destruct n as [|c n]; [right; now left|].
    right; right. exists (c :: n). split; [reflexivity|].
    intros Hc. apply Hout. split; [assumption|].
    apply name_matches_spec. exists (c :: n). repeat split; [assumption | discriminate | assumption].
Qed.

(** C4. Without a filter substring, or with the empty one, the filter stage
    returns the discovered list itself; with any substring the survivors are
    the discovered list with some records dropped, in their original order. *)
Theorem filter_identity_and_stable (found : list device) :
  filter_devices lower None found = found /\
  filter_devices lower (Some (lit "")) found = found /\
  forall S : str, subseq (filter_devices lower (Some S) found) found.
Proof.
  repeat split.
  intros S. unfold filter_devices. destruct (str_truthy S).
  - apply subseq_filter.
  - apply subseq_refl.
Qed.

(** C5. When the binding is not installed, [do_scan] raises the
    "bleak is not installed" error at once: nothing is printed, the discovery
    operation is not called, and no value is returned. *)
Theorem missing_binding_raises_first (timeout : float) (filter_name : option str) :
  trace (do_scan float_str lower None timeout filter_name) = [] /\
  outcome (do_scan float_str lower None timeout filter_name) =
    inl (RuntimeError "bleak is not installed. Run: pip install bleak") /\
  forall results : pyval, outcome (do_scan float_str lower None timeout filter_name) <> inr results.
Proof.
  repeat split. intros results H. discriminate H.
Qed.

(** ** The report *)

Lemma printed_lines (survivors : list device) :
  printed (float := float) (map (fun d => Print (line_of d)) survivors) =
  map line_of survivors.
Proof.
  induction survivors as [|d rest IH]; simpl; [reflexivity | now rewrite IH].
Qed.

(** C7. When devices survive, the result stage of [do_scan] prints one line
    per survivor, and in each line the address is followed by spaces up to a
    field of 20 characters and the name by spaces up to a field of 30; both
    are written in full at the left of their field, which is as long as the
    text when the text is longer than the width. *)
Theorem device_lines_padded (sc : scanner) (timeout : float)
    (filter_name : option str) (found : list device) :
  sc timeout = inr found ->
  filter_devices lower filter_name found <> [] ->
  printed (after_discover (trace (do_scan float_str lower (Some sc) timeout filter_name))) =
    map line_of (filter_devices lower filter_name found) /\
  forall d : device, exists pad_address pad_name : str,
    line_of d =
      lit "Address: " ++ (address d ++ pad_address) ++ lit " Name: "
        ++ (name_or_empty d ++ pad_name) ++ lit " RSSI: "
        ++ opt_int_str (getattr (rssi d) None) /\
    pad_address = repeat space (20 - List.length (address d)) /\
    pad_name = repeat space (30 - List.length (name_or_empty d)) /\
    List.length (address d ++ pad_address) = Nat.max 20 (List.length (address d)) /\
    List.length (name_or_empty d ++ pad_name) = Nat.max 30 (List.length (name_or_empty d)).
Proof.
  intros Hsc Hne. split.
  - rewrite (do_scan_returns _ _ filter_name _ Hsc). cbn [trace fst after_discover].
    unfold report_events.
    destruct (filter_devices lower filter_name found) as [|d rest]; [now elim Hne|].
    apply printed_lines.
  - intros d. eexists; eexists. split; [reflexivity|].
    split; [reflexivity|]. split; [reflexivity|].
    split; apply ljust_length.
Qed.

(** C8. Whenever the binding is present, the first thing the program does
    is to print the progress line for the given timeout, and the next is the
    call of the discovery operation with that timeout; nothing printed later
    is the progress line and the discovery operation is not called again. *)
Theorem progress_line_before_discovery (sc : scanner) (a : args) :
  exists rest : list event,
    trace (main float_str lower (Some sc) a) =
      Print (lit "Scanning for BLE devices for " ++ float_str (arg_timeout a)
               ++ lit " seconds...")
        :: Discover (arg_timeout a) :: rest /\
    ~ In (Print (progress_line float_str (arg_timeout a))) rest /\
    forall t : float, ~ In (Discover t) rest.
Proof.
  destruct (sc (arg_timeout a)) as [e|found] eqn:Hsc.
  - rewrite (main_scan_raises _ _ _ _ (do_scan_raises _ _ (arg_filter_name a) _ Hsc)).
    eexists. split; [reflexivity|]. split.
    + intros [H | []]. discriminate H.
    + intros t [H | []]. discriminate H.
  - pose proof (do_scan_returns _ _ (arg_filter_name a) _ Hsc) as Hrun.
    set (survivors := filter_devices lower (arg_filter_name a) found) in *.
    destruct (arg_json a) eqn:Hj.
    + destruct (Json.dumps (PyList (map make_item survivors))) as [e|text] eqn:Hd.
      * rewrite (main_json_raises _ _ _ _ _ Hrun Hj Hd).
        eexists. split; [reflexivity|]. split.
        -- apply report_events_no_progress.
        -- intros t. apply report_events_no_discover.
      * rewrite (main_json_printed _ _ _ _ _ Hrun Hj Hd).
        exists (report_events survivors ++ [Print text]).
        split; [reflexivity|]. split.
        -- intros H. apply in_app_or in H. destruct H as [H | [H | []]].
           ++ revert H. apply report_events_no_progress.
           ++ apply dumps_list_head in Hd.
              assert (E : text = progress_line float_str (arg_timeout a)) by congruence.
              rewrite E, progress_line_head in Hd. discriminate.
        -- intros t H. apply in_app_or in H. destruct H as [H | [H | []]].
           ++ revert H. apply report_events_no_discover.
           ++ discriminate H.
    + rewrite (main_no_json _ _ _ _ Hrun Hj).
      eexists. split; [reflexivity|]. split.
      * apply report_events_no_progress.
      * intros t. apply report_events_no_discover.
Qed.

(** ** The records *)

Lemma name_or_empty_none (d : device) : name d = None -> name_or_empty d = lit "".
Proof. unfold name_or_empty. now intros ->. Qed.

Lemma name_or_empty_some (d : device) (n : str) :
  name d = Some n -> name_or_empty d = n.
Proof. unfold name_or_empty. intros ->. now destruct n. Qed.

Lemma details_default (d : device) :
  metadata d = None -> details d = None -> details_of d = PyDict [].
Proof. unfold details_of. now intros -> ->. Qed.

(** The values the device line reads back from the item are the ones the
    line is built from. *)
Lemma make_item_lookups (d : device) :
  getitem (make_item d) (lit "address") = Some (PyStr (address d)) /\
  getitem (make_item d) (lit "name") = Some (PyStr (name_or_empty d)) /\
  getitem (make_item d) (lit "rssi") = Some (of_opt_int (getattr (rssi d) None)) /\
  getitem (make_item d) (lit "details") = Some (details_of d).
Proof. repeat split. Qed.

(** C9. When the discovery operation returns, [do_scan] returns a list: the
    empty list when no device survives the filter, and otherwise one
    dictionary per survivor, in order, whose keys are exactly [address],
    [name], [rssi] and [details]; the name is a string, the empty one for a
    device without a name, and the details are the empty dictionary for a
    device with neither a [metadata] nor a [details] attribute. *)
Theorem do_scan_returns_records (sc : scanner) (timeout : float)
    (filter_name : option str) (found : list device) :
  sc timeout = inr found ->
  exists items : list pyval,
    outcome (do_scan float_str lower (Some sc) timeout filter_name) = inr (PyList items) /\
    (filter_devices lower filter_name found = [] -> items = []) /\
    Forall2
      (fun d item =>
         keys item = [KStr (lit "address"); KStr (lit "name");
                      KStr (lit "rssi"); KStr (lit "details")] /\
         getitem item (lit "address") = Some (PyStr (address d)) /\
         (exists s : str,
            getitem item (lit "name") = Some (PyStr s) /\
            (name d = None -> s = lit "") /\
            (forall n, name d = Some n -> s = n)) /\
         getitem item (lit "rssi") = Some (of_opt_int (getattr (rssi d) None)) /\
         (exists v : pyval,
            getitem item (lit "details") = Some v /\
            (metadata d = None -> details d = None -> v = PyDict [])))
      (filter_devices lower filter_name found) items.
Proof.
  intros Hsc. rewrite (do_scan_returns _ _ filter_name _ Hsc).
  exists (map make_item (filter_devices lower filter_name found)).
  split; [reflexivity|]. split; [now intros ->|].
  induction (filter_devices lower filter_name found) as [|d rest IH]; simpl; constructor.
  - destruct (make_item_lookups d) as [Ha [Hn [Hr Hd]]].
    split; [reflexivity|]. split; [exact Ha|]. split.
    + exists (name_or_empty d). split; [exact Hn|]. split.
      * apply name_or_empty_none.
      * apply name_or_empty_some.
    + split; [exact Hr|]. exists (details_of d). split; [exact Hd|].
      apply details_default.
  - exact IH.
Qed.

(** ** Empty results, errors and exit codes *)

Lemma dumps_empty_list : Json.dumps (PyList []) = inr (lit "[]").
Proof. reflexivity. Qed.

(** C1 (amended). When no device survives (the scan found none or the
    filter removed them all), the result stage prints the line
    [No devices found.]; without the JSON flag nothing else is printed, and
    with the JSON flag the rendering of the empty list, [[]], follows it.
    [main] returns 0. *)
Theorem no_devices_output (sc : scanner) (a : args) (found : list device) :
  sc (arg_timeout a) = inr found ->
  filter_devices lower (arg_filter_name a) found = [] ->
  printed (after_discover (trace (main float_str lower (Some sc) a))) =
    lit "No devices found." :: (if arg_json a then [lit "[]"] else []) /\
  outcome (main float_str lower (Some sc) a) = inr 0%Z.
Proof.
  intros Hsc Hnone.
  pose proof (do_scan_returns _ _ (arg_filter_name a) _ Hsc) as Hrun.
  rewrite Hnone in Hrun. cbn [map report_events] in Hrun.
  destruct (arg_json a) eqn:Hj.
  - rewrite (main_json_printed _ _ _ _ _ Hrun Hj dumps_empty_list). now split.
  - rewrite (main_no_json _ _ _ _ Hrun Hj). now split.
Qed.

(** C2 (amended). Every exception that ends [do_scan] (the missing binding,
    a failure of the scan, anything raised before [do_scan] returns) is
    caught once by [main]: after what [do_scan] had printed, [main] prints
    the one line [Error during scan: <message>] and returns 2. *)
Theorem scan_exception_reported (B : option scanner) (a : args) (e : exn) :
  outcome (do_scan float_str lower B (arg_timeout a) (arg_filter_name a)) = inl e ->
  main float_str lower B a =
    (trace (do_scan float_str lower B (arg_timeout a) (arg_filter_name a))
       ++ [Print (lit "Error during scan: " ++ exn_str e)],
     inr 2%Z).
Proof.
  intros H.
  destruct (do_scan float_str lower B (arg_timeout a) (arg_filter_name a)) as [tr r] eqn:Hrun.
  cbn [outcome snd] in H. subst r.
  now rewrite (main_scan_raises _ _ _ _ Hrun).
Qed.

(** C6 (amended). [main] returns 0 whenever [do_scan] and the JSON
    rendering, when requested, complete without an exception, the case of no
    devices included; it returns 2 whenever an exception is raised inside
    [do_scan]; and it returns no other code. *)
Theorem main_exit_codes (B : option scanner) (a : args) :
  (forall results : pyval,
     outcome (do_scan float_str lower B (arg_timeout a) (arg_filter_name a)) = inr results ->
     arg_json a = false \/ (exists text, Json.dumps results = inr text) ->
     outcome (main float_str lower B a) = inr 0%Z) /\
  (forall e : exn,
     outcome (do_scan float_str lower B (arg_timeout a) (arg_filter_name a)) = inl e ->
     outcome (main float_str lower B a) = inr 2%Z) /\
  (forall code : Z,
     outcome (main float_str lower B a) = inr code -> code = 0%Z \/ code = 2%Z).
Proof.
  destruct (do_scan float_str lower B (arg_timeout a) (arg_filter_name a)) as [tr [e|results]] eqn:Hrun;
    cbn [outcome snd].
  - rewrite (main_scan_raises _ _ _ _ Hrun). cbn [outcome snd].
    repeat split; try discriminate.
    intros code H. right. congruence.
  - split; [|split; [discriminate|]].
    + intros results' E Hok. injection E as <-.
      destruct Hok as [Hj | [text Hd]].
      * now rewrite (main_no_json _ _ _ _ Hrun Hj).
      * destruct (arg_json a) eqn:Hj.
        -- now rewrite (main_json_printed _ _ _ _ _ Hrun Hj Hd).
        -- now rewrite (main_no_json _ _ _ _ Hrun Hj).
    + destruct (arg_json a) eqn:Hj.
      * destruct (Json.dumps results) as [e|text] eqn:Hd.
        -- rewrite (main_json_raises _ _ _ _ _ Hrun Hj Hd). cbn [outcome snd]. discriminate.
        -- rewrite (main_json_printed _ _ _ _ _ Hrun Hj Hd). cbn [outcome snd].
           intros code H. left. congruence.
      * rewrite (main_no_json _ _ _ _ Hrun Hj). cbn [outcome snd].
        intros code H. left. congruence.
Qed.

(** ** More on the filter stage *)

Lemma contains_trans (a b c : str) :
  contains a b -> contains b c -> contains a c.
Proof.
  intros [p1 [q1 ->]] [p2 [q2 ->]].
  exists (p2 ++ p1), (q1 ++ q2). now rewrite <- !app_assoc.
Qed.

Lemma filter_devices_nonempty (S : str) (found : list device) :
  S <> [] ->
  filter_devices lower (Some S) found = filter (name_matches lower S) found.
Proof.
  intros HS. unfold filter_devices.
  apply str_truthy_nonempty in HS. now rewrite HS.
Qed.

Lemma filter_implied {A : Type} (p q : A -> bool) (l : list A) :
  (forall x, p x = true -> q x = true) ->
  filter p (filter q l) = filter p l.
Proof.
  intros H. induction l as [|x rest IH]; simpl; [reflexivity|].
  destruct (q x) eqn:Hq; simpl.
  - now rewrite IH.
  - destruct (p x) eqn:Hp; [|exact IH].
    apply H in Hp. congruence.
Qed.

(** X1. The filter reads its substring only through [str.lower]: two
    non-empty substrings with the same folded text (differing in case only)
    select the same records. *)
Theorem filter_ignores_case (S S' : str) (found : list device) :
  S <> [] -> S' <> [] -> lower S = lower S' ->
  filter_devices lower (Some S) found = filter_devices lower (Some S') found.
Proof.
  intros HS HS' Heq. rewrite !filter_devices_nonempty by assumption.
  apply filter_ext. intros d. unfold name_matches. now rewrite Heq.
Qed.

(** X2. A filter whose folded text contains the folded text of another
    filter is the narrower one: applying it to the survivors of the broader
    filter gives what it gives on the whole list. *)
Theorem filter_narrowing (S S' : str) (found : list device) :
  S <> [] -> S' <> [] -> contains (lower S') (lower S) ->
  filter_devices lower (Some S) (filter_devices lower (Some S') found) =
  filter_devices lower (Some S) found.
Proof.
  intros HS HS' Hsub. rewrite !filter_devices_nonempty by assumption.
  apply filter_implied. intros d Hd.
  apply name_matches_spec in Hd. destruct Hd as [n [Hn [Hne Hc]]].
  apply name_matches_spec. exists n. repeat split; try assumption.
  exact (contains_trans _ _ _ Hsub Hc).
Qed.

(** X3. Whether a record is kept does not depend on the other records:
    the filter stage of two lists put end to end is the filter stage of each,
    put end to end. *)
Theorem filter_devices_app (filter_name : option str) (found1 found2 : list device) :
  filter_devices lower filter_name (found1 ++ found2) =
  filter_devices lower filter_name found1 ++ filter_devices lower filter_name found2.
Proof.
  unfold filter_devices. destruct filter_name as [f|]; [|reflexivity].
  destruct (str_truthy f); [apply filter_app | reflexivity].
Qed.

(** X4. A discovered device with a non-empty name survives the filter made
    of that very name. *)
Theorem filter_keeps_exact_name (d : device) (n : str) (found : list device) :
  In d found -> name d = Some n -> n <> [] ->
  In d (filter_devices lower (Some n) found).
Proof.
  intros Hin Hname Hne. rewrite filter_devices_nonempty by assumption.
  apply filter_In. split; [assumption|].
  apply name_matches_spec. exists n. repeat split; try assumption.
  exists [], []. simpl. now rewrite app_nil_r.
Qed.

(** ** More on the runs of [main] *)

Lemma serializable_make_item (d : device) :
  Json.serializable (make_item d) = Json.serializable (details_of d).
Proof.
  unfold make_item.
  change (true && (true && (Json.serializable (of_opt_int (getattr (rssi d) None))
                            && (Json.serializable (details_of d) && true))) =
          Json.serializable (details_of d)).
  destruct (getattr (rssi d) None); cbn [of_opt_int Json.serializable andb];
    apply andb_true_r.
Qed.

Lemma serializable_results (survivors : list device) :
  Json.serializable (PyList (map make_item survivors)) =
  forallb (fun d => Json.serializable (details_of d)) survivors.
Proof.
  cbn [Json.serializable]. induction survivors as [|d rest IH]; [reflexivity|].
  cbn [map forallb]. now rewrite serializable_make_item, IH.
Qed.

Lemma main_after_scan (sc : scanner) (a : args) (found : list device) :
  sc (arg_timeout a) = inr found ->
  main float_str lower (Some sc) a =
  let survivors := filter_devices lower (arg_filter_name a) found in
  let tr := Print (progress_line float_str (arg_timeout a))
              :: Discover (arg_timeout a) :: report_events survivors in
  if arg_json a
  then match Json.dumps (PyList (map make_item survivors)) with
       | inl e => (tr, inl e)
       | inr text => (tr ++ [Print text], inr 0%Z)
       end
  else (tr, inr 0%Z).
Proof.
  intros Hsc. cbv zeta.
  pose proof (do_scan_returns _ _ (arg_filter_name a) _ Hsc) as Hrun.
  destruct (arg_json a) eqn:Hj.
  - destruct (Json.dumps (PyList (map make_item
               (filter_devices lower (arg_filter_name a) found)))) as [e|text] eqn:Hd.
    + exact (main_json_raises _ _ _ _ _ Hrun Hj Hd).
    + exact (main_json_printed _ _ _ _ _ Hrun Hj Hd).
  - exact (main_no_json _ _ _ _ Hrun Hj).
Qed.

Lemma scan_failure_run_aux (sc : scanner) (a : args) (e : exn) :
  sc (arg_timeout a) = inl e ->
  main float_str lower (Some sc) a =
  ([ Print (progress_line float_str (arg_timeout a));
     Discover (arg_timeout a);
     Print (error_line e) ],
   inr 2%Z).
Proof.
  intros Hsc.
  exact (main_scan_raises _ _ _ _ (do_scan_raises _ _ (arg_filter_name a) _ Hsc)).
Qed.

(** X5. When the discovery operation raises, the whole run is: the
    progress line, the call, the error line with the message of that
    exception, and the code 2, whatever the filter and the JSON flag;
    neither [No devices found.] nor any JSON text is printed. *)
Theorem scan_failure_run (sc : scanner) (a : args) (e : exn) :
  sc (arg_timeout a) = inl e ->
  main float_str lower (Some sc) a =
  ([ Print (lit "Scanning for BLE devices for " ++ float_str (arg_timeout a)
              ++ lit " seconds...");
     Discover (arg_timeout a);
     Print (lit "Error during scan: " ++ exn_str e) ],
   inr 2%Z).
Proof.
  intros Hsc.
  exact (main_scan_raises _ _ _ _ (do_scan_raises _ _ (arg_filter_name a) _ Hsc)).
Qed.

(** X6. The device lines and the returned records agree: when devices
    survive, the i-th line printed after the scan is the line made of the
    address, the name and the RSSI stored in the i-th returned dictionary. *)
Theorem printed_lines_match_records (sc : scanner) (timeout : float)
    (filter_name : option str) (found : list device) :
  sc timeout = inr found ->
  filter_devices lower filter_name found <> [] ->
  exists items : list pyval,
    outcome (do_scan float_str lower (Some sc) timeout filter_name) = inr (PyList items) /\
    Forall2
      (fun item text =>
         exists (addr nm : str) (r : option Z),
           getitem item (lit "address") = Some (PyStr addr) /\
           getitem item (lit "name") = Some (PyStr nm) /\
           getitem item (lit "rssi") = Some (of_opt_int r) /\
           text = device_line addr nm r)
      items
      (printed (after_discover
                  (trace (do_scan float_str lower (Some sc) timeout filter_name)))).
Proof.
  intros Hsc Hne. rewrite (do_scan_returns _ _ filter_name _ Hsc).
  cbn [outcome snd trace fst after_discover]. unfold report_events.
  destruct (filter_devices lower filter_name found) as [|d0 rest0] eqn:Hf;
    [now elim Hne|].
  exists (map make_item (d0 :: rest0)). split; [reflexivity|].
  rewrite printed_lines. clear Hf Hne.
  generalize (d0 :: rest0) as survivors. intros survivors.
  induction survivors as [|d rest IH]; cbn [map]; constructor.
  - exists (address d), (name_or_empty d), (getattr (rssi d) None).
    repeat split.
  - exact IH.
Qed.

(** X7. A scan whose devices are all removed by the filter cannot be told
    from a scan that found nothing: the two runs print the same and end the
    same. *)
Theorem filtered_out_like_nothing_found (sc : scanner) (a : args) (found : list device) :
  sc (arg_timeout a) = inr found ->
  filter_devices lower (arg_filter_name a) found = [] ->
  main float_str lower (Some sc) a =
  main float_str lower (Some (fun _ => inr [])) a.
Proof.
  intros Hsc Hnone.
  assert (Hnil : filter_devices lower (arg_filter_name a) [] = []).
  { unfold filter_devices. destruct (arg_filter_name a) as [f|]; [|reflexivity].
    now destruct (str_truthy f). }
  pose proof (main_after_scan (fun _ => inr []) a [] eq_refl) as Hempty.
  cbv zeta in Hempty. rewrite Hnil in Hempty.
  rewrite (main_after_scan _ _ _ Hsc). cbv zeta. rewrite Hnone.
  symmetry. exact Hempty.
Qed.

(** X8. With the JSON flag, when the details of every survivor can be
    serialised, the JSON text is printed once, last, after the lines of the
    result stage and not instead of them, and [main] returns 0. *)
Theorem json_follows_lines (sc : scanner) (a : args) (found : list device) :
  sc (arg_timeout a) = inr found ->
  arg_json a = true ->
  forallb (fun d => Json.serializable (details_of d))
          (filter_devices lower (arg_filter_name a) found) = true ->
  exists text : str,
    Json.dumps (PyList (map make_item (filter_devices lower (arg_filter_name a) found))) =
      inr text /\
    main float_str lower (Some sc) a =
    (Print (progress_line float_str (arg_timeout a)) :: Discover (arg_timeout a)
       :: report_events (filter_devices lower (arg_filter_name a) found)
       ++ [Print text],
     inr 0%Z).
Proof.
  intros Hsc Hj Hok. rewrite (main_after_scan _ _ _ Hsc). cbv zeta. rewrite Hj.
  rewrite <- serializable_results, <- (encode_succeeds _ 0) in Hok.
  unfold Json.dumps.
  destruct (Json.encode 0 (PyList (map make_item
              (filter_devices lower (arg_filter_name a) found)))) as [e|text];
    [discriminate|].
  now exists text.
Qed.

(** X9. Without the JSON flag no exception leaves [main]: it returns 0 or
    2, whatever the binding, the scan and the devices. *)
Theorem without_json_main_returns (B : option scanner) (a : args) :
  arg_json a = false ->
  outcome (main float_str lower B a) = inr 0%Z \/
  outcome (main float_str lower B a) = inr 2%Z.
Proof.
  intros Hj.
  destruct (do_scan float_str lower B (arg_timeout a) (arg_filter_name a))
    as [tr [e|results]] eqn:Hrun.
  - right. now rewrite (main_scan_raises _ _ _ _ Hrun).
  - left. now rewrite (main_no_json _ _ _ _ Hrun Hj).
Qed.

(** X10. [main] returns 2 exactly when [do_scan] raised. *)
Theorem exit_two_iff_scan_raised (B : option scanner) (a : args) :
  outcome (main float_str lower B a) = inr 2%Z <->
  exists e : exn,
    outcome (do_scan float_str lower B (arg_timeout a) (arg_filter_name a)) = inl e.
Proof.
  destruct (do_scan float_str lower B (arg_timeout a) (arg_filter_name a))
    as [tr [e|results]] eqn:Hrun; cbn [outcome snd].
  - rewrite (main_scan_raises _ _ _ _ Hrun). cbn [outcome snd].
    split; [now exists e | reflexivity].
  - split; [|intros [e He]; discriminate].
    destruct (arg_json a) eqn:Hj.
    + destruct (Json.dumps results) as [e|text] eqn:Hd.
      * rewrite (main_json_raises _ _ _ _ _ Hrun Hj Hd). discriminate.
      * rewrite (main_json_printed _ _ _ _ _ Hrun Hj Hd). discriminate.
    + rewrite (main_no_json _ _ _ _ Hrun Hj). discriminate.
Qed.

(** X11. With the binding present, an exception leaves [main] exactly when
    the JSON flag is set, the scan returned, and the details of some
    surviving device hold a value [json] cannot serialise. *)
Theorem main_raises_iff_unserializable (sc : scanner) (a : args) :
  (exists e : exn, outcome (main float_str lower (Some sc) a) = inl e) <->
  arg_json a = true /\
  exists found : list device,
    sc (arg_timeout a) = inr found /\
    forallb (fun d => Json.serializable (details_of d))
            (filter_devices lower (arg_filter_name a) found) = false.
Proof.
  destruct (sc (arg_timeout a)) as [e0|found] eqn:Hsc.
  - rewrite (scan_failure_run_aux sc a e0 Hsc). cbn [outcome snd]. split.
    + intros [e He]. discriminate.
    + intros [_ [found [Hf _]]]. discriminate.
  - rewrite (main_after_scan _ _ _ Hsc). cbv zeta.
    pose proof (serializable_results
                  (filter_devices lower (arg_filter_name a) found)) as Hs.
    rewrite <- (encode_succeeds _ 0) in Hs.
    fold (Json.dumps (PyList (map make_item
            (filter_devices lower (arg_filter_name a) found)))) in Hs.
    destruct (arg_json a).
    + destruct (Json.dumps (PyList (map make_item
                 (filter_devices lower (arg_filter_name a) found)))) as [e|text];
        cbn [outcome snd succeeds] in *; split.
      * intros _. split; [reflexivity|]. now exists found.
      * intros _. now exists e.
      * intros [e He]. discriminate.
      * intros [_ [found' [Hf Hu]]]. injection Hf as <-. congruence.
    + cbn [outcome snd]. split.
      * intros [e He]. discriminate.
      * intros [Hj _]. discriminate.
Qed.


(** X13. Whatever the names and the details of the devices, a JSON text
    the program prints holds only printable ASCII characters and line
    breaks: every other character is written as an escape. *)
Theorem json_text_is_plain (results : pyval) (text : str) :
  Json.dumps results = inr text -> plain_text text.
Proof.
  apply plain_text_encode.
Qed.

(** ** Line breaks in the device lines *)

Lemma digits_without_newline (d : Decimal.uint) :
  ~ In newline (lit (NilEmpty.string_of_uint d)).
Proof.
  induction d; simpl; intros H; try (destruct H as [H|H]; [discriminate H | now apply IHd]).
  exact H.
Qed.

Lemma int_str_without_newline (z : Z) : ~ In newline (int_str z).
Proof.
  unfold int_str. destruct (Z.to_int z) as [d|d]; cbn [NilZero.string_of_int].
  - destruct d; try apply digits_without_newline.
    simpl. intros [H|[]]. discriminate H.
  - change (~ In newline (45%N :: lit (NilZero.string_of_uint d))).
    intros [H|H]; [discriminate H|]. revert H.
    destruct d; try apply digits_without_newline.
    simpl. intros [H|[]]. discriminate H.
Qed.

Lemma spaces_without_newline (n : nat) : ~ In newline (repeat space n).
Proof. intros H. apply repeat_spec in H. discriminate H. Qed.

(** X14. A device line holds a line break exactly when the address or the
    name of the device holds one: the labels, the padding and the RSSI never
    add a line break, and the program does not remove or escape one that the
    device brings. *)
Theorem device_line_breaks (d : device) :
  In newline (line_of d) <->
  In newline (address d) \/ In newline (name_or_empty d).
Proof.
  unfold line_of, device_line, ljust. rewrite !in_app_iff.
  assert (H1 : ~ In newline (lit "Address: ")) by (simpl; intuition discriminate).
  assert (H2 : ~ In newline (lit " Name: ")) by (simpl; intuition discriminate).
  assert (H3 : ~ In newline (lit " RSSI: ")) by (simpl; intuition discriminate).
  assert (H4 : ~ In newline (opt_int_str (getattr (rssi d) None))).
  { destruct (getattr (rssi d) None) as [z|]; cbn [opt_int_str].
    - apply int_str_without_newline.
    - simpl. intuition discriminate. }
  pose proof (spaces_without_newline (20 - List.length (address d))) as H5.
  pose proof (spaces_without_newline (30 - List.length (name_or_empty d))) as H6.
  tauto.
Qed.

End Properties.

(** ** The program on sample inputs *)

Example widget_run :
  run_main (Some (scan_finding [widget])) plain_args =
  ([ Print (lit "Scanning for BLE devices for 1.0 seconds...");
     Discover 1%N;
     Print (lit "Address: 11:22:33:44:55:66    Name: Widget                         RSSI: -70") ],
   inr 0%Z).
Proof. reflexivity. Qed.

Example sensor_filter :
  filter_devices ascii_lower (Some (lit "sensor")) [temp_sensor; light; unnamed] =
  [temp_sensor].
Proof. reflexivity. Qed.

Example missing_binding_run :
  run_main None plain_args =
  ([ Print (lit "Error during scan: bleak is not installed. Run: pip install bleak") ],
   inr 2%Z).
Proof. reflexivity. Qed.

Example unnamed_item :
  make_item unnamed =
  PyDict [ (KStr (lit "address"), PyStr (lit "0A:0B:0C:0D:0E:0F"));
           (KStr (lit "name"), PyStr (lit ""));
           (KStr (lit "rssi"), PyNone);
           (KStr (lit "details"), PyDict []) ].
Proof. reflexivity. Qed.

(** The filter theorem at the filter [sensor] and two named devices. *)
Lemma filter_keeps_matching_names_witness :
  lit "sensor" <> [] /\
  forall d : device,
    (In d (filter_devices ascii_lower (Some (lit "sensor")) [temp_sensor; light]) <->
     In d [temp_sensor; light] /\
     exists n, name d = Some n /\ n <> [] /\ contains_ci ascii_lower (lit "sensor") n) /\
    (In d [temp_sensor; light] ->
     ~ In d (filter_devices ascii_lower (Some (lit "sensor")) [temp_sensor; light]) ->
     name d = None \/ name d = Some [] \/
     exists n, name d = Some n /\ ~ contains_ci ascii_lower (lit "sensor") n).
Proof.
  split.
  - discriminate.
  - apply (filter_keeps_matching_names ascii_lower (lit "sensor") [temp_sensor; light]).
    discriminate.
Defined.

(** The padding theorem on a scan that finds the widget. *)
Lemma device_lines_padded_witness :
  scan_finding [widget] 1%N = inr [widget] /\
  filter_devices ascii_lower None [widget] <> [] /\
  printed (after_discover
             (trace (do_scan seconds_str ascii_lower (Some (scan_finding [widget])) 1%N None))) =
    [ lit "Address: 11:22:33:44:55:66    Name: Widget                         RSSI: -70" ].
Proof.
  assert (Hne : filter_devices ascii_lower None [widget] <> []) by discriminate.
  split; [reflexivity|]. split; [exact Hne|].
  exact (proj1 (device_lines_padded seconds_str ascii_lower (scan_finding [widget])
                  1%N None [widget] eq_refl Hne)).
Defined.

(** The record theorem on a scan that finds a named and an unnamed device. *)
Lemma do_scan_returns_records_witness :
  scan_finding [widget; unnamed] 5%N = inr [widget; unnamed] /\
  exists items : list pyval,
    outcome (do_scan seconds_str ascii_lower (Some (scan_finding [widget; unnamed])) 5%N None) =
      inr (PyList items) /\
    List.length items = 2.
Proof.
  split; [reflexivity|].
  destruct (do_scan_returns_records seconds_str ascii_lower
              (scan_finding [widget; unnamed]) 5%N None [widget; unnamed] eq_refl)
    as [items [Hout [_ Hall]]].
  exists items. split; [exact Hout|].
  apply Forall2_length in Hall. now rewrite <- Hall.
Defined.

(** The name filter removes the only device found. *)
Lemma no_devices_output_witness :
  scan_finding [light] (arg_timeout sensor_args) = inr [light] /\
  filter_devices ascii_lower (arg_filter_name sensor_args) [light] = [] /\
  printed (after_discover (trace (run_main (Some (scan_finding [light])) sensor_args))) =
    [ lit "No devices found." ] /\
  outcome (run_main (Some (scan_finding [light])) sensor_args) = inr 0%Z.
Proof.
  split; [reflexivity|]. split; [reflexivity|].
  exact (no_devices_output seconds_str ascii_lower (scan_finding [light]) sensor_args
           [light] eq_refl eq_refl).
Defined.

(** The discovery operation raises. *)
Lemma scan_exception_reported_witness :
  outcome (do_scan seconds_str ascii_lower
             (Some (scan_failing (Exn "BleakError" (lit "Bluetooth device is turned off"))))
             (arg_timeout plain_args) (arg_filter_name plain_args)) =
    inl (Exn "BleakError" (lit "Bluetooth device is turned off")) /\
  run_main (Some (scan_failing (Exn "BleakError" (lit "Bluetooth device is turned off"))))
           plain_args =
  ([ Print (lit "Scanning for BLE devices for 1.0 seconds...");
     Discover 1%N;
     Print (lit "Error during scan: Bluetooth device is turned off") ],
   inr 2%Z).
Proof.
  split; [reflexivity|].
  exact (scan_exception_reported seconds_str ascii_lower
           (Some (scan_failing (Exn "BleakError" (lit "Bluetooth device is turned off"))))
           plain_args (Exn "BleakError" (lit "Bluetooth device is turned off")) eq_refl).
Defined.

(** ** Where the program departs from the description *)

(** C1, as stated, fails: a scan that finds nothing, run with the JSON flag,
    prints [[]] after [No devices found.]. *)
Lemma json_printed_after_no_devices :
  arg_json json_args = true /\
  printed (after_discover (trace (run_main (Some (scan_finding [])) json_args))) =
    [ lit "No devices found."; lit "[]" ] /\
  printed (after_discover (trace (run_main (Some (scan_finding [])) json_args))) <>
    [ lit "No devices found." ].
Proof.
  split; [reflexivity|]. split; [reflexivity|]. discriminate.
Qed.

(** C2, as stated, fails: the metadata of the device holds [bytes], the JSON
    rendering raises [TypeError] after [do_scan] has returned, and [main]
    neither prints an error line nor returns: the exception leaves it. *)
Lemma json_exception_not_caught :
  Json.dumps (PyList [make_item temp_sensor]) =
    inl (TypeError (lit "Object of type bytes is not JSON serializable")) /\
  run_main (Some (scan_finding [temp_sensor])) json_args =
  ([ Print (lit "Scanning for BLE devices for 5.0 seconds...");
     Discover 5%N;
     Print (lit "Address: AA:BB:CC:DD:EE:FF    Name: TempSensor                     RSSI: -61") ],
   inl (TypeError (lit "Object of type bytes is not JSON serializable"))).
Proof.
  split; reflexivity.
Qed.

(** C6, as stated, fails: an exception raised during the JSON output does
    not make [main] return 2; [main] returns no code at all. *)
Lemma json_exception_no_exit_code :
  outcome (run_main (Some (scan_finding [temp_sensor; light])) json_args) =
    inl (TypeError (lit "Object of type bytes is not JSON serializable")) /\
  outcome (run_main (Some (scan_finding [temp_sensor; light])) json_args) <> inr 2%Z.
Proof.
  split; [reflexivity | discriminate].
Qed.

(** ** The further properties on sample inputs *)

Lemma filter_ignores_case_witness :
  lit "sensor" <> [] /\ lit "SENSOR" <> [] /\
  ascii_lower (lit "sensor") = ascii_lower (lit "SENSOR") /\
  filter_devices ascii_lower (Some (lit "sensor")) [temp_sensor; light] =
  filter_devices ascii_lower (Some (lit "SENSOR")) [temp_sensor; light].
Proof.
  assert (H1 : lit "sensor" <> []) by discriminate.
  assert (H2 : lit "SENSOR" <> []) by discriminate.
  split; [exact H1|]. split; [exact H2|]. split; [reflexivity|].
  exact (filter_ignores_case ascii_lower (lit "sensor") (lit "SENSOR")
           [temp_sensor; light] H1 H2 eq_refl).
Defined.

Lemma filter_narrowing_witness :
  lit "TempSensor" <> [] /\ lit "sensor" <> [] /\
  contains (ascii_lower (lit "sensor")) (ascii_lower (lit "TempSensor")) /\
  filter_devices ascii_lower (Some (lit "TempSensor"))
    (filter_devices ascii_lower (Some (lit "sensor")) [temp_sensor; light; widget]) =
  filter_devices ascii_lower (Some (lit "TempSensor")) [temp_sensor; light; widget].
Proof.
  assert (H1 : lit "TempSensor" <> []) by discriminate.
  assert (H2 : lit "sensor" <> []) by discriminate.
  assert (H3 : contains (ascii_lower (lit "sensor")) (ascii_lower (lit "TempSensor")))
    by (exists (lit "temp"), []; reflexivity).
  split; [exact H1|]. split; [exact H2|]. split; [exact H3|].
  exact (filter_narrowing ascii_lower (lit "TempSensor") (lit "sensor")
           [temp_sensor; light; widget] H1 H2 H3).
Defined.

Lemma filter_keeps_exact_name_witness :
  In widget [light; widget] /\ name widget = Some (lit "Widget") /\
  lit "Widget" <> [] /\
  In widget (filter_devices ascii_lower (Some (lit "Widget")) [light; widget]).
Proof.
  assert (H1 : In widget [light; widget]) by (right; left; reflexivity).
  assert (H3 : lit "Widget" <> []) by discriminate.
  split; [exact H1|]. split; [reflexivity|]. split; [exact H3|].
  exact (filter_keeps_exact_name ascii_lower widget (lit "Widget") [light; widget]
           H1 eq_refl H3).
Defined.

Lemma scan_failure_run_witness :
  scan_failing (Exn "BleakError" (lit "No adapter")) (arg_timeout json_args) =
    inl (Exn "BleakError" (lit "No adapter")) /\
  run_main (Some (scan_failing (Exn "BleakError" (lit "No adapter")))) json_args =
  ([ Print (lit "Scanning for BLE devices for 5.0 seconds...");
     Discover 5%N;
     Print (lit "Error during scan: No adapter") ],
   inr 2%Z).
Proof.
  split; [reflexivity|].
  exact (scan_failure_run seconds_str ascii_lower
           (scan_failing (Exn "BleakError" (lit "No adapter"))) json_args
           (Exn "BleakError" (lit "No adapter")) eq_refl).
Defined.

Lemma printed_lines_match_records_witness :
  scan_finding [widget; unnamed] 1%N = inr [widget; unnamed] /\
  filter_devices ascii_lower None [widget; unnamed] <> [] /\
  exists items : list pyval,
    outcome (do_scan seconds_str ascii_lower (Some (scan_finding [widget; unnamed]))
               1%N None) = inr (PyList items) /\
    List.length items =
    List.length (printed (after_discover
                   (trace (do_scan seconds_str ascii_lower
                             (Some (scan_finding [widget; unnamed])) 1%N None)))).
Proof.
  assert (Hne : filter_devices ascii_lower None [widget; unnamed] <> []) by discriminate.
  split; [reflexivity|]. split; [exact Hne|].
  destruct (printed_lines_match_records seconds_str ascii_lower
              (scan_finding [widget; unnamed]) 1%N None [widget; unnamed] eq_refl Hne)
    as [items [Hout Hall]].
  exists items. split; [exact Hout|].
  exact (Forall2_length Hall).
Defined.

Lemma filtered_out_like_nothing_found_witness :
  scan_finding [light; unnamed] (arg_timeout sensor_args) = inr [light; unnamed] /\
  filter_devices ascii_lower (arg_filter_name sensor_args) [light; unnamed] = [] /\
  run_main (Some (scan_finding [light; unnamed])) sensor_args =
  run_main (Some (scan_finding [])) sensor_args.
Proof.
  split; [reflexivity|]. split; [reflexivity|].
  exact (filtered_out_like_nothing_found seconds_str ascii_lower
           (scan_finding [light; unnamed]) sensor_args [light; unnamed]
           eq_refl eq_refl).
Defined.

Lemma json_follows_lines_witness :
  scan_finding [widget; light] (arg_timeout json_args) = inr [widget; light] /\
  arg_json json_args = true /\
  forallb (fun d => Json.serializable (details_of d))
          (filter_devices ascii_lower (arg_filter_name json_args) [widget; light]) = true /\
  exists text : str,
    printed (trace (run_main (Some (scan_finding [widget; light])) json_args)) =
    [ lit "Scanning for BLE devices for 5.0 seconds...";
      lit "Address: 11:22:33:44:55:66    Name: Widget                         RSSI: -70";
      lit "Address: 01:02:03:04:05:06    Name: Light                          RSSI: None";
      text ].
Proof.
  split; [reflexivity|]. split; [reflexivity|]. split; [reflexivity|].
  destruct (json_follows_lines seconds_str ascii_lower (scan_finding [widget; light])
              json_args [widget; light] eq_refl eq_refl eq_refl) as [text [_ Hrun]].
  exists text. unfold run_main. rewrite Hrun. reflexivity.
Defined.

Lemma without_json_main_returns_witness :
  arg_json plain_args = false /\
  (outcome (run_main (Some (scan_finding [temp_sensor])) plain_args) = inr 0%Z \/
   outcome (run_main (Some (scan_finding [temp_sensor])) plain_args) = inr 2%Z).
Proof.
  split; [reflexivity|].
  exact (without_json_main_returns seconds_str ascii_lower
           (Some (scan_finding [temp_sensor])) plain_args eq_refl).
Defined.

(** The letter e with an acute accent (code point 233) is written as the
    escape [u00e9] after a backslash. *)
Lemma json_text_is_plain_witness :
  Json.dumps (PyStr [233%N]) = inr ([34%N; 92%N] ++ lit "u00e9" ++ [34%N]) /\
  plain_text ([34%N; 92%N] ++ lit "u00e9" ++ [34%N]).
Proof.
  split; [reflexivity|].
  exact (json_text_is_plain (PyStr [233%N]) ([34%N; 92%N] ++ lit "u00e9" ++ [34%N]) eq_refl).
Defined.
